(** * HubSpot OAuth token exchange: [connections/hubspot/init.ts]

    A shallow embedding of the [init] function of the HubSpot connection
    and the properties of its request, result and failure behaviour.

    The function is asynchronous and has one effect, the [axios] call.  It is
    embedded as a tree of type [Async]: a computation returns, throws, or
    awaits one HTTP request and continues with the settled promise.  Running
    a tree against a network gives the list of requests issued and the
    outcome of the promise that [init] returns. *)

From Stdlib Require Import String Ascii List ZArith Bool Lia.
From Stdlib Require Import DecimalString.
Import ListNotations.

#[local] Set Warnings "-register-all".

Local Open Scope list_scope.
Local Open Scope string_scope.

(** ** JavaScript data *)

(** The values that reach [init]: the caller's [body] and the provider's
    parsed response are plain data.  An object is the list of its own
    properties in insertion order (the order [Object.keys] gives).  A number
    is an integer in the range where JavaScript numbers are exact. *)
Inductive value : Type :=
| VUndefined
| VNull
| VBool (b : bool)
| VNumber (n : Z)
| VString (s : string)
| VArray (items : list value)
| VObject (fields : list (string * value)).

(** [undefined] and [null] are the two values that cannot be destructured. *)
Definition nullish (v : value) : bool :=
  match v with
  | VUndefined | VNull => true
  | _ => false
  end.

Fixpoint own_property (k : string) (fields : list (string * value)) : option value :=
  match fields with
  | [] => None
  | (k', v) :: rest => if String.eqb k k' then Some v else own_property k rest
  end.

(** The property names that [init] reads, from [body], from [body.metadata]
    and from [response.data]. *)
Inductive key : Type :=
| K_clientId
| K_clientSecret
| K_metadata
| K_code
| K_redirectUri
| K_access_token
| K_refresh_token
| K_expires_in.

Definition key_name (k : key) : string :=
  match k with
  | K_clientId => "clientId"
  | K_clientSecret => "clientSecret"
  | K_metadata => "metadata"
  | K_code => "code"
  | K_redirectUri => "redirectUri"
  | K_access_token => "access_token"
  | K_refresh_token => "refresh_token"
  | K_expires_in => "expires_in"
  end.

(** Whether a value is an object that has the property. *)
Definition has_field (v : value) (k : key) : bool :=
  match v with
  | VObject fields =>
      match own_property (key_name k) fields with
      | Some _ => true
      | None => false
      end
  | _ => false
  end.

(** Reading property [k] of a value that is neither [undefined] nor [null].
    A missing property reads as [undefined].  None of the names of [key] is a
    property of a boolean, number, string or array, nor of [Object.prototype],
    so on those values the read gives [undefined] as well. *)
Definition get (v : value) (k : key) : value :=
  match v with
  | VObject fields =>
      match own_property (key_name k) fields with
      | Some x => x
      | None => VUndefined
      end
  | _ => VUndefined
  end.

(** ** Errors *)

Record JSError : Type := mkError {
  error_name : string;
  error_message : string
}.

(** [Error.prototype.toString], which the template literal [`${error}`]
    calls. *)
Definition error_to_string (e : JSError) : string :=
  if String.eqb (error_name e) "" then error_message e
  else if String.eqb (error_message e) "" then error_name e
  else error_name e ++ ": " ++ error_message e.

(** ** qs.stringify with its default options *)

Definition unreserved (c : ascii) : bool :=
  let n := nat_of_ascii c in
  (Nat.eqb n 45 || Nat.eqb n 46 || Nat.eqb n 95 || Nat.eqb n 126
   || (Nat.leb 48 n && Nat.leb n 57)
   || (Nat.leb 65 n && Nat.leb n 90)
   || (Nat.leb 97 n && Nat.leb n 122))%bool.

Definition hex_digit (n : nat) : ascii :=
  ascii_of_nat (if Nat.ltb n 10 then 48 + n else 55 + n).

(** The default encoder of qs: the bytes of the UTF-8 form of the string,
    each kept when it is a letter, a digit or one of [-._~] and written as
    [%XX] otherwise.  A [string] here is the UTF-8 form. *)
Fixpoint encode (s : string) : string :=
  match s with
  | EmptyString => EmptyString
  | String c rest =>
      if unreserved c then String c (encode rest)
      else
        let n := nat_of_ascii c in
        String "%" (String (hex_digit (n / 16)) (String (hex_digit (n mod 16)) (encode rest)))
  end.

Definition number_to_string (n : Z) : string :=
  NilEmpty.string_of_int (Z.to_int n).

Definition index_to_string (i : nat) : string :=
  NilEmpty.string_of_uint (Nat.to_uint i).

(** The [key=value] pairs that one property contributes.  An [undefined]
    value contributes nothing, [null] is written as the empty string, and the
    members of a nested object or array get the key [prefix[member]]. *)
Fixpoint stringify (prefix : string) (obj : value) : list string :=
  match obj with
  | VUndefined => []
  | VNull => [encode prefix ++ "=" ++ encode ""]
  | VBool b => [encode prefix ++ "=" ++ encode (if b then "true" else "false")]
  | VNumber n => [encode prefix ++ "=" ++ encode (number_to_string n)]
  | VString s => [encode prefix ++ "=" ++ encode s]
  | VArray items =>
      (fix members (i : nat) (l : list value) : list string :=
         match l with
         | [] => []
         | v :: l' =>
             (stringify (prefix ++ "[" ++ index_to_string i ++ "]") v ++ members (S i) l')%list
         end) 0%nat items
  | VObject fields =>
      (fix members (l : list (string * value)) : list string :=
         match l with
         | [] => []
         | (k, v) :: l' => (stringify (prefix ++ "[" ++ k ++ "]") v ++ members l')%list
         end) fields
  end.

Fixpoint stringify_items (i : nat) (items : list value) : list string :=
  match items with
  | [] => []
  | v :: rest => (stringify (index_to_string i) v ++ stringify_items (S i) rest)%list
  end.

Fixpoint stringify_fields (fields : list (string * value)) : list string :=
  match fields with
  | [] => []
  | (k, v) :: rest => (stringify k v ++ stringify_fields rest)%list
  end.

Definition qs_stringify (obj : value) : string :=
  match obj with
  | VObject fields => String.concat "&" (stringify_fields fields)
  | VArray items => String.concat "&" (stringify_items 0 items)
  | _ => ""
  end.

(** ** axios *)

Record AxiosConfig : Type := mkConfig {
  url : string;
  method : string;
  headers : list (string * string);
  data : string
}.

Record AxiosResponse : Type := mkResponse {
  response_status : Z;
  response_data : value
}.

(** What the network does with a request: the transport fails with an error,
    or the provider answers with a status and a body.  The body is given as
    axios hands it over in [response.data], after its default response
    transform. *)
Inductive NetOutcome : Type :=
| NetFailure (e : JSError)
| NetResponse (status : Z) (body_data : value).

Definition Network : Type := AxiosConfig -> NetOutcome.

Inductive Settled : Type :=
| Fulfilled (response : AxiosResponse)
| Rejected (e : JSError).

(** The default [validateStatus] of axios. *)
Definition validateStatus (status : Z) : bool :=
  ((200 <=? status) && (status <? 300))%Z.

(** ** Asynchronous computations *)

Inductive Async (A : Type) : Type :=
| Return (a : A)
| Throw (e : JSError)
| Await (config : AxiosConfig) (k : Settled -> Async A).

Arguments Return {A} a.
Arguments Throw {A} e.
Arguments Await {A} config k.

Fixpoint bind {A B : Type} (p : Async A) (f : A -> Async B) : Async B :=
  match p with
  | Return a => f a
  | Throw e => Throw e
  | Await config k => Await config (fun s => bind (k s) f)
  end.

(** [try { p } catch (error) { handler error }] *)
Fixpoint try_catch {A : Type} (p : Async A) (handler : JSError -> Async A) : Async A :=
  match p with
  | Return a => Return a
  | Throw e => handler e
  | Await config k => Await config (fun s => try_catch (k s) handler)
  end.

(** [await axios(config)]: the response of a fulfilled promise, and the
    rejection thrown at the [await]. *)
Definition axios (config : AxiosConfig) : Async AxiosResponse :=
  Await config (fun s =>
    match s with
    | Fulfilled response => Return response
    | Rejected e => Throw e
    end).

Notation "'let!' x ':=' c 'in' k" := (bind c (fun x => k))
  (at level 10, x pattern, c at level 100, k at level 200).

Inductive Outcome (A : Type) : Type :=
| Returned (a : A)
| Thrown (e : JSError).

Arguments Returned {A} a.
Arguments Thrown {A} e.

(** The patterns of [init] that destructure a value. *)
Inductive pattern_site : Type :=
| AtBody
| AtMetadata
| AtResponseData.

(** What the JavaScript engine and the axios version in use decide: the
    message of the [TypeError] raised when a pattern destructures [undefined]
    or [null], and the error axios rejects with for a status that
    [validateStatus] refuses. *)
Record Runtime : Type := mkRuntime {
  type_error_message : pattern_site -> value -> string;
  status_error : Z -> JSError
}.

(** ** The types of [lib/types] *)

Record DataObject : Type := mkDataObject {
  body : value
}.

Record OAuthResponse : Type := mkOAuthResponse {
  accessToken : value;
  refreshToken : value;
  expiresIn : value;
  tokenType : string;
  meta : list (string * value)
}.

Section Init.

Variable rt : Runtime.

(** How the promise of [axios] settles: it is fulfilled with the response
    when [validateStatus] accepts the status, and rejected otherwise and when
    the transport fails. *)
Definition settle (o : NetOutcome) : Settled :=
  match o with
  | NetFailure e => Rejected e
  | NetResponse status d =>
      if validateStatus status then Fulfilled (mkResponse status d)
      else Rejected (status_error rt status)
  end.

(** The requests a computation issues against [net], in order, and how the
    promise it stands for ends. *)
Fixpoint run {A : Type} (net : Network) (p : Async A) : list AxiosConfig * Outcome A :=
  match p with
  | Return a => ([], Returned a)
  | Throw e => ([], Thrown e)
  | Await config k =>
      let r := run net (k (settle (net config))) in
      (config :: fst r, snd r)
  end.

(** An object pattern applied to [v]: a [TypeError] when [v] is [undefined]
    or [null]. *)
Definition RequireObjectCoercible (site : pattern_site) (v : value) : Async value :=
  if nullish v then Throw (mkError "TypeError" (type_error_message rt site v))
  else Return v.

Definition requestBody (code client_id client_secret redirect_uri : value)
  : list (string * value) :=
  [ ("grant_type", VString "authorization_code");
    ("code", code);
    ("client_id", client_id);
    ("client_secret", client_secret);
    ("redirect_uri", redirect_uri) ].

Definition token_request (request_body : list (string * value)) : AxiosConfig :=
  {| url := "https://api.hubapi.com/oauth/v1/token";
     method := "POST";
     headers := [ ("Content-Type", "application/x-www-form-urlencoded");
                  ("Accept", "application/json") ];
     data := qs_stringify (VObject request_body) |}.

(** The error that the [catch] clause throws. The specification calls it
    [TokenExchangeError]. *)
Definition TokenExchangeError (error : JSError) : JSError :=
  mkError "Error" ("Error fetching access token for Hubspot: " ++ error_to_string error).

(** [init]: the two nested object patterns on [body], the request, the
    object pattern on [response.data], all inside one [try] block. *)
Definition init (arg : DataObject) : Async OAuthResponse :=
  try_catch
    (let! b := RequireObjectCoercible AtBody (body arg) in
     let client_id := get b K_clientId in
     let client_secret := get b K_clientSecret in
     let! m := RequireObjectCoercible AtMetadata (get b K_metadata) in
     let code := get m K_code in
     let redirect_uri := get m K_redirectUri in
     let request_body := requestBody code client_id client_secret redirect_uri in
     let! response := axios (token_request request_body) in
     let! d := RequireObjectCoercible AtResponseData (response_data response) in
     Return {| accessToken := get d K_access_token;
               refreshToken := get d K_refresh_token;
               expiresIn := get d K_expires_in;
               tokenType := "Bearer";
               meta := [] |})
    (fun error => Throw (TokenExchangeError error)).

Definition requests_of (net : Network) (arg : DataObject) : list AxiosConfig :=
  fst (run net (init arg)).

Definition outcome_of (net : Network) (arg : DataObject) : Outcome OAuthResponse :=
  snd (run net (init arg)).

End Init.

(** ** The request and the result, read off the input *)

(** The request that [init] issues for a [body] whose patterns match. *)
Definition request_for (b : value) : AxiosConfig :=
  token_request
    (requestBody (get (get b K_metadata) K_code)
                 (get b K_clientId)
                 (get b K_clientSecret)
                 (get (get b K_metadata) K_redirectUri)).

(** The record built from [response.data]. *)
Definition tokens_of (d : value) : OAuthResponse :=
  {| accessToken := get d K_access_token;
     refreshToken := get d K_refresh_token;
     expiresIn := get d K_expires_in;
     tokenType := "Bearer";
     meta := [] |}.

Definition destructure_error (rt : Runtime) (site : pattern_site) (v : value) : JSError :=
  mkError "TypeError" (type_error_message rt site v).

(** The outcome of [init] once the promise of [axios] has settled. *)
Definition after_settle (rt : Runtime) (s : Settled) : Outcome OAuthResponse :=
  match s with
  | Rejected e => Thrown (TokenExchangeError e)
  | Fulfilled response =>
      if nullish (response_data response)
      then Thrown (TokenExchangeError
                     (destructure_error rt AtResponseData (response_data response)))
      else Returned (tokens_of (response_data response))
  end.

(** ** Sample runtime, inputs and providers *)

Definition site_text (site : pattern_site) : string :=
  match site with
  | AtBody => "body"
  | AtMetadata => "body.metadata"
  | AtResponseData => "response.data"
  end.

(** Messages in the style of Node with axios 1.x. *)
Definition sample_runtime : Runtime :=
  {| type_error_message := fun site v =>
       "Cannot destructure '" ++ site_text site ++ "' as it is "
       ++ (match v with VNull => "null" | _ => "undefined" end) ++ ".";
     status_error := fun status =>
       mkError "AxiosError"
               ("Request failed with status code " ++ number_to_string status) |}.

Definition sample_input : DataObject :=
  {| body := VObject
       [ ("clientId", VString "client-1");
         ("clientSecret", VString "s3cr&t");
         ("metadata", VObject [ ("code", VString "c0de/1");
                                ("redirectUri", VString "https://app.example/cb") ]) ] |}.

Definition sample_input_without_code : DataObject :=
  {| body := VObject
       [ ("clientId", VString "client-1");
         ("clientSecret", VString "s3cr&t");
         ("metadata", VObject [ ("redirectUri", VString "https://app.example/cb") ]) ] |}.

Definition sample_input_without_metadata : DataObject :=
  {| body := VObject
       [ ("clientId", VString "client-1");
         ("clientSecret", VString "s3cr&t") ] |}.

Definition provider_tokens : Network :=
  fun _ => NetResponse 200
    (VObject [ ("access_token", VString "A");
               ("refresh_token", VString "R");
               ("expires_in", VNumber 3600) ]).

Definition provider_tokens_extra : Network :=
  fun _ => NetResponse 201
    (VObject [ ("token_type", VString "mac");
               ("access_token", VString "A");
               ("hub_id", VNumber 42);
               ("refresh_token", VString "R");
               ("expires_in", VNumber 3600) ]).

Definition provider_access_token_only : Network :=
  fun _ => NetResponse 200 (VObject [ ("access_token", VString "A") ]).

Definition provider_null_body : Network :=
  fun _ => NetResponse 200 VNull.

Definition provider_bad_request : Network :=
  fun _ => NetResponse 400 (VObject [ ("status", VString "BAD_AUTH_CODE") ]).

Definition provider_unreachable : Network :=
  fun _ => NetFailure (mkError "Error" "connect ECONNREFUSED 127.0.0.1:443").

(** ** Reading a form body back *)

(** The receiving side of [application/x-www-form-urlencoded], as the URL
    standard parses it: the body is cut at every [&], empty pieces are
    skipped, a piece is cut at its first [=], and in the name and in the
    value [+] stands for a space and [%XX] for the byte with that code. *)

Definition hex_value (c : ascii) : option nat :=
  let n := nat_of_ascii c in
  if (Nat.leb 48 n && Nat.leb n 57)%bool then Some (n - 48)
  else if (Nat.leb 65 n && Nat.leb n 70)%bool then Some (n - 55)
  else if (Nat.leb 97 n && Nat.leb n 102)%bool then Some (n - 87)
  else None.

Fixpoint decode (s : string) : string :=
  match s with
  | EmptyString => EmptyString
  | String c rest =>
      if Ascii.eqb c "%" then
        match rest with
        | String h (String l rest') =>
            match hex_value h, hex_value l with
            | Some a, Some b => String (ascii_of_nat (16 * a + b)) (decode rest')
            | _, _ => String c (decode rest)
            end
        | _ => String c (decode rest)
        end
      else String (if Ascii.eqb c "+" then " "%char else c) (decode rest)
  end.

Fixpoint occurs (sep : ascii) (s : string) : bool :=
  match s with
  | EmptyString => false
  | String c rest => (Ascii.eqb c sep || occurs sep rest)%bool
  end.

Fixpoint split_on (sep : ascii) (s : string) : list string :=
  match s with
  | EmptyString => [EmptyString]
  | String c rest =>
      if Ascii.eqb c sep then EmptyString :: split_on sep rest
      else
        match split_on sep rest with
        | [] => [String c EmptyString]
        | first :: others => String c first :: others
        end
  end.

Fixpoint split_pair (s : string) : string * string :=
  match s with
  | EmptyString => (EmptyString, EmptyString)
  | String c rest =>
      if Ascii.eqb c "=" then (EmptyString, rest)
      else (String c (fst (split_pair rest)), snd (split_pair rest))
  end.

Definition parse_field (field : string) : string * string :=
  (decode (fst (split_pair field)), decode (snd (split_pair field))).

Definition parse_form (form_body : string) : list (string * string) :=
  map parse_field
      (filter (fun field => negb (String.eqb field "")) (split_on "&" form_body)).

(** The object whose properties are the given names with string values. *)
Definition string_fields (pairs : list (string * string)) : list (string * value) :=
  map (fun pair => (fst pair, VString (snd pair))) pairs.

(** More sample inputs: the fields of [sample_input] in another order among
    fields that [init] does not read, and a [code] that is [null]. *)
Definition sample_input_with_more : DataObject :=
  {| body := VObject
       [ ("state", VString "xyz");
         ("metadata", VObject [ ("redirectUri", VString "https://app.example/cb");
                                ("scope", VArray [VString "crm.read"]);
                                ("code", VString "c0de/1") ]);
         ("clientSecret", VString "s3cr&t");
         ("clientId", VString "client-1") ] |}.

Definition sample_input_null_code : DataObject :=
  {| body := VObject
       [ ("clientId", VString "client-1");
         ("clientSecret", VString "s3cr&t");
         ("metadata", VObject [ ("code", VNull);
                                ("redirectUri", VString "https://app.example/cb") ]) ] |}.

Definition provider_redirect : Network :=
  fun _ => NetResponse 302 (VString "").

(** ** The form fields of flat values *)




(** ** Strings *)


(** ** Running asynchronous computations *)

Section RunFacts.

Variable rt : Runtime.

(** A [catch] clause that only throws leaves the requests of the guarded
    block as they are. *)
Lemma run_try_catch_requests {A : Type} (net : Network) (p : Async A)
      (wrap : JSError -> JSError) :
  fst (run rt net (try_catch p (fun e => Throw (wrap e)))) = fst (run rt net p).
Proof.
  induction p as [a | e | config k IH]; simpl; try reflexivity.
  now rewrite IH.
Qed.

(** ... and turns what the block throws into what the clause throws. *)
Lemma run_try_catch_outcome {A : Type} (net : Network) (p : Async A)
      (wrap : JSError -> JSError) :
  snd (run rt net (try_catch p (fun e => Throw (wrap e)))) =
  match snd (run rt net p) with
  | Returned a => Returned a
  | Thrown e => Thrown (wrap e)
  end.
Proof.
  induction p as [a | e | config k IH]; simpl; try reflexivity.
  apply IH.
Qed.

(** *** [init], case by case *)

Lemma run_init (net : Network) (arg : DataObject) :
  run rt net (init rt arg) =
  if nullish (body arg)
  then ([], Thrown (TokenExchangeError (destructure_error rt AtBody (body arg))))
  else if nullish (get (body arg) K_metadata)
  then ([], Thrown (TokenExchangeError
                      (destructure_error rt AtMetadata (get (body arg) K_metadata))))
  else ([request_for (body arg)],
        after_settle rt (settle rt (net (request_for (body arg))))).
Proof.
  unfold init, RequireObjectCoercible.
  destruct (nullish (body arg)) eqn:Hbody; [reflexivity |].
  simpl bind.
  destruct (nullish (get (body arg) K_metadata)) eqn:Hmeta; [reflexivity |].
  simpl. unfold request_for, after_settle.
  destruct (settle rt (net _)) as [response | e]; simpl; [| reflexivity].
  destruct (nullish (response_data response)); reflexivity.
Qed.

Lemma requests_of_cases (net : Network) (arg : DataObject) :
  requests_of rt net arg =
  if (nullish (body arg) || nullish (get (body arg) K_metadata))%bool
  then []
  else [request_for (body arg)].
Proof.
  unfold requests_of. rewrite run_init.
  destruct (nullish (body arg)); [reflexivity |].
  destruct (nullish (get (body arg) K_metadata)); reflexivity.
Qed.

Lemma requests_of_In (net : Network) (arg : DataObject) (config : AxiosConfig) :
  In config (requests_of rt net arg) ->
  nullish (body arg) = false /\
  nullish (get (body arg) K_metadata) = false /\
  config = request_for (body arg).
Proof.
  rewrite requests_of_cases.
  destruct (nullish (body arg)); simpl; [tauto |].
  destruct (nullish (get (body arg) K_metadata)); simpl; [tauto |].
  intros [H | []]. now subst.
Qed.

Lemma outcome_of_request (net : Network) (arg : DataObject) (config : AxiosConfig) :
  In config (requests_of rt net arg) ->
  outcome_of rt net arg = after_settle rt (settle rt (net config)).
Proof.
  intros Hin. destruct (requests_of_In _ _ _ Hin) as (Hb & Hm & ->).
  unfold outcome_of. rewrite run_init, Hb, Hm. reflexivity.
Qed.

Lemma settle_response (status : Z) (d : value) :
  validateStatus status = true ->
  settle rt (NetResponse status d) = Fulfilled (mkResponse status d).
Proof. intros H. simpl. now rewrite H. Qed.

Lemma settle_refused (status : Z) (d : value) :
  validateStatus status = false ->
  settle rt (NetResponse status d) = Rejected (status_error rt status).
Proof. intros H. simpl. now rewrite H. Qed.

(** [init] returns only on a fulfilled promise, and then the record read
    from the body. *)
Lemma returned_after_settle (o : NetOutcome) (result : OAuthResponse) :
  after_settle rt (settle rt o) = Returned result ->
  exists status d,
    o = NetResponse status d /\ validateStatus status = true /\
    nullish d = false /\ result = tokens_of d.
Proof.
  destruct o as [e | status d]; simpl; [discriminate |].
  destruct (validateStatus status) eqn:Hstatus; simpl; [| discriminate].
  destruct (nullish d) eqn:Hd; [discriminate |].
  intros [= <-]. exists status, d. auto.
Qed.

Lemma get_missing (v : value) (k : key) :
  has_field v k = false -> get v k = VUndefined.
Proof.
  destruct v; simpl; try reflexivity.
  destruct (own_property (key_name k) fields); [discriminate | reflexivity].
Qed.

End RunFacts.


(** ** The successful exchange *)

(** C1.  When [clientId], [clientSecret], [metadata.code] and
    [metadata.redirectUri] are present in the input and the POST succeeds
    with the body [{access_token: "A", refresh_token: "R", expires_in: 3600}],
    [init] issues that one request and returns exactly
    [{accessToken: "A", refreshToken: "R", expiresIn: 3600,
      tokenType: "Bearer", meta: {}}]. *)
Theorem init_returns_normalized_tokens
    (rt : Runtime) (net : Network) (arg : DataObject)
    (fields mfields : list (string * value)) (cid cs c r : value) (status : Z) :
  body arg = VObject fields ->
  own_property "clientId" fields = Some cid ->
  own_property "clientSecret" fields = Some cs ->
  own_property "metadata" fields = Some (VObject mfields) ->
  own_property "code" mfields = Some c ->
  own_property "redirectUri" mfields = Some r ->
  validateStatus status = true ->
  net (token_request (requestBody c cid cs r)) =
    NetResponse status
      (VObject [ ("access_token", VString "A");
                 ("refresh_token", VString "R");
                 ("expires_in", VNumber 3600) ]) ->
  run rt net (init rt arg) =
    ([token_request (requestBody c cid cs r)],
     Returned {| accessToken := VString "A";
                 refreshToken := VString "R";
                 expiresIn := VNumber 3600;
                 tokenType := "Bearer";
                 meta := [] |}).
Proof.
  intros Hbody Hcid Hcs Hmeta Hcode Hredirect Hstatus Hnet.
  assert (Hrequest : request_for (VObject fields) = token_request (requestBody c cid cs r)).
  { unfold request_for, get. simpl key_name.
    rewrite Hcid, Hcs, Hmeta, Hcode, Hredirect. reflexivity. }
  assert (Hm : get (VObject fields) K_metadata = VObject mfields).
  { unfold get. simpl key_name. now rewrite Hmeta. }
  rewrite run_init, Hbody, Hm, Hrequest, Hnet, settle_response by assumption.
  reflexivity.
Qed.

Lemma init_returns_normalized_tokens_witness :
  run sample_runtime provider_tokens (init sample_runtime sample_input) =
    ([token_request (requestBody (VString "c0de/1") (VString "client-1")
                                 (VString "s3cr&t") (VString "https://app.example/cb"))],
     Returned {| accessToken := VString "A";
                 refreshToken := VString "R";
                 expiresIn := VNumber 3600;
                 tokenType := "Bearer";
                 meta := [] |}).
Proof.
  apply (init_returns_normalized_tokens sample_runtime provider_tokens sample_input
           [ ("clientId", VString "client-1");
             ("clientSecret", VString "s3cr&t");
             ("metadata", VObject [ ("code", VString "c0de/1");
                                    ("redirectUri", VString "https://app.example/cb") ]) ]
           [ ("code", VString "c0de/1");
             ("redirectUri", VString "https://app.example/cb") ]
           (VString "client-1") (VString "s3cr&t")
           (VString "c0de/1") (VString "https://app.example/cb") 200%Z);
    reflexivity.
Defined.

(** ** Failures of the HTTP call *)

(** C2.  Whatever the input, when the request that [init] issued fails, by a
    failure of the transport or by a status outside 200..299 such as 400,
    [init] throws the one generic error whose message is the fixed prefix
    followed by the string form of the underlying error.  Every error that
    [init] throws has this shape, so no failure gets a kind of its own. *)
Theorem init_wraps_every_failure
    (rt : Runtime) (net : Network) (arg : DataObject) :
  (forall config e,
      In config (requests_of rt net arg) ->
      net config = NetFailure e ->
      outcome_of rt net arg = Thrown (TokenExchangeError e)) /\
  (forall config status d,
      In config (requests_of rt net arg) ->
      net config = NetResponse status d ->
      validateStatus status = false ->
      outcome_of rt net arg = Thrown (TokenExchangeError (status_error rt status))) /\
  (forall err,
      outcome_of rt net arg = Thrown err ->
      exists e,
        err = mkError "Error"
                ("Error fetching access token for Hubspot: " ++ error_to_string e)).
Proof.
  split; [| split].
  - intros config e Hin Hnet.
    rewrite (outcome_of_request rt net arg config Hin), Hnet. reflexivity.
  - intros config status d Hin Hnet Hstatus.
    rewrite (outcome_of_request rt net arg config Hin), Hnet, settle_refused by assumption.
    reflexivity.
  - intros err. unfold outcome_of, init.
    rewrite (run_try_catch_outcome rt net _ TokenExchangeError).
    destruct (snd (run rt net _)) as [a | e]; [discriminate |].
    intros [= <-]. now exists e.
Qed.

Lemma init_wraps_every_failure_witness :
  outcome_of sample_runtime provider_bad_request sample_input =
    Thrown (mkError "Error"
      "Error fetching access token for Hubspot: AxiosError: Request failed with status code 400")
  /\
  outcome_of sample_runtime provider_unreachable sample_input =
    Thrown (mkError "Error"
      "Error fetching access token for Hubspot: Error: connect ECONNREFUSED 127.0.0.1:443").
Proof.
  split.
  - apply (proj1 (proj2 (init_wraps_every_failure sample_runtime provider_bad_request
                           sample_input))
             (request_for (body sample_input)) 400%Z
             (VObject [ ("status", VString "BAD_AUTH_CODE") ]));
      [now left | reflexivity | reflexivity].
  - apply (proj1 (init_wraps_every_failure sample_runtime provider_unreachable sample_input)
             (request_for (body sample_input))
             (mkError "Error" "connect ECONNREFUSED 127.0.0.1:443"));
      [now left | reflexivity].
Defined.

(** ** A missing authorization code *)

(** C3, as stated, fails.  The input below has [metadata] without [code];
    the patterns of [init] bind [code] to [undefined] and throw nothing, the
    request goes out with the [code] field left out of the form body, and
    with a provider that answers 200 [init] returns tokens. *)
Lemma init_accepts_missing_code :
  has_field (get (body sample_input_without_code) K_metadata) K_code = false /\
  run sample_runtime provider_tokens (init sample_runtime sample_input_without_code) =
    ([ {| url := "https://api.hubapi.com/oauth/v1/token";
          method := "POST";
          headers := [ ("Content-Type", "application/x-www-form-urlencoded");
                       ("Accept", "application/json") ];
          data := "grant_type=authorization_code&client_id=client-1&client_secret=s3cr%26t&redirect_uri=https%3A%2F%2Fapp.example%2Fcb" |} ],
     Returned {| accessToken := VString "A";
                 refreshToken := VString "R";
                 expiresIn := VNumber 3600;
                 tokenType := "Bearer";
                 meta := [] |}) /\
  ~ (exists e, outcome_of sample_runtime provider_tokens sample_input_without_code = Thrown e).
Proof.
  split; [reflexivity |]. split; [reflexivity |].
  intros [e He]. discriminate He.
Qed.

(** C3, amended.  When [body] or [body.metadata] is [undefined] or [null],
    [init] issues no request and throws the generic error that wraps the
    [TypeError] of the pattern.  When [metadata] is there and has no [code],
    nothing is thrown while the request is built: [init] issues its one
    request with [code] bound to [undefined], which the form encoding leaves
    out, and on a response with a status in 200..299 and a body other than
    [null] it returns the record read from that body. *)
Theorem init_missing_code
    (rt : Runtime) (net : Network) (arg : DataObject) :
  ((nullish (body arg) || nullish (get (body arg) K_metadata))%bool = true ->
   requests_of rt net arg = [] /\
   exists site v,
     outcome_of rt net arg = Thrown (TokenExchangeError (destructure_error rt site v))) /\
  (nullish (body arg) = false ->
   nullish (get (body arg) K_metadata) = false ->
   has_field (get (body arg) K_metadata) K_code = false ->
   let config :=
     token_request
       (requestBody VUndefined (get (body arg) K_clientId) (get (body arg) K_clientSecret)
                    (get (get (body arg) K_metadata) K_redirectUri)) in
   requests_of rt net arg = [config] /\
   data config =
     qs_stringify
       (VObject [ ("grant_type", VString "authorization_code");
                  ("client_id", get (body arg) K_clientId);
                  ("client_secret", get (body arg) K_clientSecret);
                  ("redirect_uri", get (get (body arg) K_metadata) K_redirectUri) ]) /\
   forall status d,
     net config = NetResponse status d ->
     validateStatus status = true ->
     nullish d = false ->
     outcome_of rt net arg = Returned (tokens_of d)).
Proof.
  split.
  - intros Hnull. split.
    + rewrite requests_of_cases, Hnull. reflexivity.
    + unfold outcome_of. rewrite run_init.
      destruct (nullish (body arg)).
      * now exists AtBody, (body arg).
      * simpl in Hnull. rewrite Hnull.
        now exists AtMetadata, (get (body arg) K_metadata).
  - intros Hbody Hmeta Hcode config.
    assert (Hconfig : request_for (body arg) = config).
    { unfold request_for, config. now rewrite (get_missing _ _ Hcode). }
    split; [| split].
    + rewrite requests_of_cases, Hbody, Hmeta. simpl. now rewrite Hconfig.
    + reflexivity.
    + intros status d Hnet Hstatus Hd.
      unfold outcome_of.
      rewrite run_init, Hbody, Hmeta, Hconfig, Hnet, settle_response by assumption.
      simpl. now rewrite Hd.
Qed.

Lemma init_missing_code_witness :
  (requests_of sample_runtime provider_tokens sample_input_without_metadata = [] /\
   exists site v,
     outcome_of sample_runtime provider_tokens sample_input_without_metadata =
       Thrown (TokenExchangeError (destructure_error sample_runtime site v))) /\
  outcome_of sample_runtime provider_tokens sample_input_without_code =
    Returned {| accessToken := VString "A";
                refreshToken := VString "R";
                expiresIn := VNumber 3600;
                tokenType := "Bearer";
                meta := [] |}.
Proof.
  split.
  - apply (proj1 (init_missing_code sample_runtime provider_tokens
                    sample_input_without_metadata)).
    reflexivity.
  - apply (proj2 (proj2 (proj2 (init_missing_code sample_runtime provider_tokens
                                  sample_input_without_code)
                           eq_refl eq_refl eq_refl))
             200%Z
             (VObject [ ("access_token", VString "A");
                        ("refresh_token", VString "R");
                        ("expires_in", VNumber 3600) ]));
      reflexivity.
Defined.

(** ** The outbound request *)




(** C5.  Whatever [clientId], [clientSecret], [metadata.code] and
    [metadata.redirectUri] are, the body of a request that [init] issues is a
    list of form fields joined by [&] whose first field is the literal
    [grant_type=authorization_code]. *)
Theorem init_grant_type_literal
    (rt : Runtime) (net : Network) (arg : DataObject) (config : AxiosConfig) :
  In config (requests_of rt net arg) ->
  exists others,
    data config = String.concat "&" ("grant_type=authorization_code" :: others).
Proof.
  intros Hin.
  destruct (requests_of_In rt net arg config Hin) as (_ & _ & ->).
  eexists. unfold request_for, token_request, requestBody, qs_stringify.
  cbn [data stringify_fields]. reflexivity.
Qed.

Lemma init_grant_type_literal_witness :
  exists others,
    data (request_for (body sample_input_without_code)) =
      String.concat "&" ("grant_type=authorization_code" :: others).
Proof.
  apply (init_grant_type_literal sample_runtime provider_bad_request
           sample_input_without_code).
  now left.
Defined.

(** ** The returned record *)

(** C6.  Whenever [init] returns a record, its [tokenType] is the literal
    ["Bearer"], whatever the response of the provider contained. *)
Theorem init_token_type_is_bearer
    (rt : Runtime) (net : Network) (arg : DataObject) (result : OAuthResponse) :
  outcome_of rt net arg = Returned result ->
  tokenType result = "Bearer".
Proof.
  unfold outcome_of. rewrite run_init.
  destruct (nullish (body arg)); [discriminate |].
  destruct (nullish (get (body arg) K_metadata)); [discriminate |].
  cbn [snd]. unfold after_settle.
  destruct (settle rt _) as [response | e]; [| discriminate].
  destruct (nullish (response_data response)); [discriminate |].
  now intros [= <-].
Qed.

Lemma init_token_type_is_bearer_witness :
  own_property "token_type"
    [ ("token_type", VString "mac");
      ("access_token", VString "A");
      ("hub_id", VNumber 42);
      ("refresh_token", VString "R");
      ("expires_in", VNumber 3600) ] = Some (VString "mac") /\
  outcome_of sample_runtime provider_tokens_extra sample_input =
    Returned {| accessToken := VString "A";
                refreshToken := VString "R";
                expiresIn := VNumber 3600;
                tokenType := "Bearer";
                meta := [] |} /\
  tokenType {| accessToken := VString "A";
               refreshToken := VString "R";
               expiresIn := VNumber 3600;
               tokenType := "Bearer";
               meta := [] |} = "Bearer".
Proof.
  split; [reflexivity |]. split; [reflexivity |].
  apply (init_token_type_is_bearer sample_runtime provider_tokens_extra sample_input).
  reflexivity.
Defined.

(** C7.  Whenever [init] returns a record, its [meta] is the empty
    mapping. *)
Theorem init_meta_is_empty
    (rt : Runtime) (net : Network) (arg : DataObject) (result : OAuthResponse) :
  outcome_of rt net arg = Returned result ->
  meta result = [].
Proof.
  unfold outcome_of. rewrite run_init.
  destruct (nullish (body arg)); [discriminate |].
  destruct (nullish (get (body arg) K_metadata)); [discriminate |].
  cbn [snd]. unfold after_settle.
  destruct (settle rt _) as [response | e]; [| discriminate].
  destruct (nullish (response_data response)); [discriminate |].
  now intros [= <-].
Qed.

Lemma init_meta_is_empty_witness :
  meta (tokens_of (VObject [ ("access_token", VString "A") ])) = [].
Proof.
  apply (init_meta_is_empty sample_runtime provider_access_token_only sample_input).
  reflexivity.
Defined.

(** C8.  Two successful responses to the request of [init] that agree on
    [access_token], [refresh_token] and [expires_in] give the same returned
    record, whatever their status and whatever else they carry: the record
    is made of these three fields and of nothing else of the response. *)
Theorem init_reads_three_fields_only
    (rt : Runtime) (net1 net2 : Network) (arg : DataObject) (config : AxiosConfig)
    (status1 status2 : Z) (d1 d2 : value) (result1 result2 : OAuthResponse) :
  In config (requests_of rt net1 arg) ->
  net1 config = NetResponse status1 d1 ->
  net2 config = NetResponse status2 d2 ->
  outcome_of rt net1 arg = Returned result1 ->
  outcome_of rt net2 arg = Returned result2 ->
  get d1 K_access_token = get d2 K_access_token ->
  get d1 K_refresh_token = get d2 K_refresh_token ->
  get d1 K_expires_in = get d2 K_expires_in ->
  result1 = result2 /\
  result1 = {| accessToken := get d1 K_access_token;
               refreshToken := get d1 K_refresh_token;
               expiresIn := get d1 K_expires_in;
               tokenType := "Bearer";
               meta := [] |}.
Proof.
  intros Hin Hnet1 Hnet2 Hout1 Hout2 Haccess Hrefresh Hexpires.
  assert (Hin2 : In config (requests_of rt net2 arg)).
  { rewrite requests_of_cases in Hin |- *. exact Hin. }
  rewrite (outcome_of_request rt net1 arg config Hin), Hnet1 in Hout1.
  rewrite (outcome_of_request rt net2 arg config Hin2), Hnet2 in Hout2.
  apply returned_after_settle in Hout1 as (s1 & b1 & [= <- <-] & _ & _ & ->).
  apply returned_after_settle in Hout2 as (s2 & b2 & [= <- <-] & _ & _ & ->).
  unfold tokens_of. rewrite Haccess, Hrefresh, Hexpires. split; reflexivity.
Qed.

Lemma init_reads_three_fields_only_witness :
  outcome_of sample_runtime provider_tokens sample_input =
    Returned {| accessToken := VString "A";
                refreshToken := VString "R";
                expiresIn := VNumber 3600;
                tokenType := "Bearer";
                meta := [] |} /\
  outcome_of sample_runtime provider_tokens_extra sample_input =
    Returned (tokens_of (VObject [ ("token_type", VString "mac");
                                   ("access_token", VString "A");
                                   ("hub_id", VNumber 42);
                                   ("refresh_token", VString "R");
                                   ("expires_in", VNumber 3600) ])) /\
  {| accessToken := VString "A";
     refreshToken := VString "R";
     expiresIn := VNumber 3600;
     tokenType := "Bearer";
     meta := [] |} = tokens_of (VObject [ ("token_type", VString "mac");
                                          ("access_token", VString "A");
                                          ("hub_id", VNumber 42);
                                          ("refresh_token", VString "R");
                                          ("expires_in", VNumber 3600) ]).
Proof.
  split; [reflexivity |]. split; [reflexivity |].
  apply (proj1 (init_reads_three_fields_only sample_runtime provider_tokens
                  provider_tokens_extra sample_input (request_for (body sample_input))
                  200%Z 201%Z
                  (VObject [ ("access_token", VString "A");
                             ("refresh_token", VString "R");
                             ("expires_in", VNumber 3600) ])
                  (VObject [ ("token_type", VString "mac");
                             ("access_token", VString "A");
                             ("hub_id", VNumber 42);
                             ("refresh_token", VString "R");
                             ("expires_in", VNumber 3600) ])
                  _ _
                  (or_introl eq_refl) eq_refl eq_refl eq_refl eq_refl
                  eq_refl eq_refl eq_refl)).
Defined.

(** ** Incomplete responses *)

(** C10, as stated, fails.  The provider below answers 200 with the body
    [null].  That body has none of the three fields, and [init] does not
    return: the pattern on [response.data] throws, and the promise is
    rejected with the generic error. *)
Lemma init_null_body_is_rejected :
  requests_of sample_runtime provider_null_body sample_input =
    [request_for (body sample_input)] /\
  provider_null_body (request_for (body sample_input)) = NetResponse 200 VNull /\
  validateStatus 200 = true /\
  has_field VNull K_access_token = false /\
  has_field VNull K_refresh_token = false /\
  has_field VNull K_expires_in = false /\
  outcome_of sample_runtime provider_null_body sample_input =
    Thrown (mkError "Error"
      "Error fetching access token for Hubspot: TypeError: Cannot destructure 'response.data' as it is null.") /\
  ~ (forall (rt : Runtime) (net : Network) (arg : DataObject) (config : AxiosConfig)
            (status : Z) (d : value),
        In config (requests_of rt net arg) ->
        net config = NetResponse status d ->
        validateStatus status = true ->
        has_field d K_access_token = false \/
        has_field d K_refresh_token = false \/
        has_field d K_expires_in = false ->
        exists result, outcome_of rt net arg = Returned result).
Proof.
  repeat (split; [reflexivity |]).
  intros Hclaim.
  destruct (Hclaim sample_runtime provider_null_body sample_input
                   (request_for (body sample_input)) 200%Z VNull
                   (or_introl eq_refl) eq_refl eq_refl (or_introl eq_refl))
    as [result Hreturned].
  discriminate Hreturned.
Qed.

(** C10, amended.  When the request of [init] is answered with a status in
    200..299 and a parsed body that is neither [null] nor [undefined],
    [init] does not throw, whichever of [access_token], [refresh_token] and
    [expires_in] the body lacks: it returns the record read from the body,
    and each field of the record whose source field the body lacks is
    [undefined]. *)
Theorem init_tolerates_missing_response_fields
    (rt : Runtime) (net : Network) (arg : DataObject) (config : AxiosConfig)
    (status : Z) (d : value) :
  In config (requests_of rt net arg) ->
  net config = NetResponse status d ->
  validateStatus status = true ->
  nullish d = false ->
  outcome_of rt net arg =
    Returned {| accessToken := get d K_access_token;
                refreshToken := get d K_refresh_token;
                expiresIn := get d K_expires_in;
                tokenType := "Bearer";
                meta := [] |} /\
  (has_field d K_access_token = false -> get d K_access_token = VUndefined) /\
  (has_field d K_refresh_token = false -> get d K_refresh_token = VUndefined) /\
  (has_field d K_expires_in = false -> get d K_expires_in = VUndefined).
Proof.
  intros Hin Hnet Hstatus Hd. split.
  - rewrite (outcome_of_request rt net arg config Hin), Hnet, settle_response by assumption.
    unfold after_settle. cbn [response_data]. now rewrite Hd.
  - repeat split; apply get_missing.
Qed.

Lemma init_tolerates_missing_response_fields_witness :
  has_field (VObject [ ("access_token", VString "A") ]) K_refresh_token = false /\
  has_field (VObject [ ("access_token", VString "A") ]) K_expires_in = false /\
  outcome_of sample_runtime provider_access_token_only sample_input =
    Returned {| accessToken := VString "A";
                refreshToken := VUndefined;
                expiresIn := VUndefined;
                tokenType := "Bearer";
                meta := [] |}.
Proof.
  split; [reflexivity |]. split; [reflexivity |].
  apply (proj1 (init_tolerates_missing_response_fields sample_runtime
                  provider_access_token_only sample_input
                  (request_for (body sample_input)) 200%Z
                  (VObject [ ("access_token", VString "A") ])
                  (or_introl eq_refl) eq_refl eq_refl eq_refl)).
Defined.

(** A response with a status in 200..299 whose parsed body is [null] (or
    [undefined]) cannot be destructured: the [TypeError] of the pattern is
    caught and [init] throws the generic error that wraps it. *)
Theorem init_rejects_nullish_response
    (rt : Runtime) (net : Network) (arg : DataObject) (config : AxiosConfig)
    (status : Z) (d : value) :
  In config (requests_of rt net arg) ->
  net config = NetResponse status d ->
  validateStatus status = true ->
  nullish d = true ->
  outcome_of rt net arg =
    Thrown (TokenExchangeError (mkError "TypeError" (type_error_message rt AtResponseData d))).
Proof.
  intros Hin Hnet Hstatus Hd.
  rewrite (outcome_of_request rt net arg config Hin), Hnet, settle_response by assumption.
  unfold after_settle. cbn [response_data]. now rewrite Hd.
Qed.

Lemma init_rejects_nullish_response_witness :
  outcome_of sample_runtime provider_null_body sample_input =
    Thrown (mkError "Error"
      "Error fetching access token for Hubspot: TypeError: Cannot destructure 'response.data' as it is null.").
Proof.
  apply (init_rejects_nullish_response sample_runtime provider_null_body sample_input
           (request_for (body sample_input)) 200%Z VNull);
    [now left | reflexivity ..].
Defined.

(** On the wire, the body of a request that [init] issues is the literal
    [grant_type=authorization_code] followed by what [code], [client_id],
    [client_secret] and [redirect_uri] contribute, joined by [&]; a field
    whose value is [undefined] contributes nothing and is left out. *)
Theorem init_wire_body
    (rt : Runtime) (net : Network) (arg : DataObject) (config : AxiosConfig) :
  In config (requests_of rt net arg) ->
  data config =
    String.concat "&"
      ("grant_type=authorization_code"
       :: (stringify "code" (get (get (body arg) K_metadata) K_code)
           ++ stringify "client_id" (get (body arg) K_clientId)
           ++ stringify "client_secret" (get (body arg) K_clientSecret)
           ++ stringify "redirect_uri" (get (get (body arg) K_metadata) K_redirectUri))%list) /\
  forall name, stringify name VUndefined = [].
Proof.
  intros Hin.
  destruct (requests_of_In rt net arg config Hin) as (_ & _ & ->).
  split; [| reflexivity].
  unfold request_for, token_request, requestBody, qs_stringify.
  cbn [data stringify_fields]. now rewrite app_nil_r.
Qed.

Lemma init_wire_body_witness :
  data (request_for (body sample_input_without_code)) =
    "grant_type=authorization_code&client_id=client-1&client_secret=s3cr%26t&redirect_uri=https%3A%2F%2Fapp.example%2Fcb".
Proof.
  apply (proj1 (init_wire_body sample_runtime provider_tokens sample_input_without_code
                  (request_for (body sample_input_without_code)) (or_introl eq_refl))).
Defined.

(** ** The form body, read back *)

Lemma unreserved_plain (c : ascii) :
  unreserved c = true ->
  Ascii.eqb c "%" = false /\ Ascii.eqb c "+" = false /\
  Ascii.eqb c "&" = false /\ Ascii.eqb c "=" = false.
Proof.
  destruct c as [[] [] [] [] [] [] [] []]; vm_compute; intros H;
    try discriminate H; repeat split.
Qed.

Lemma escape_round_trip (c : ascii) :
  hex_value (hex_digit (nat_of_ascii c / 16)) = Some (nat_of_ascii c / 16) /\
  hex_value (hex_digit (nat_of_ascii c mod 16)) = Some (nat_of_ascii c mod 16) /\
  ascii_of_nat (16 * (nat_of_ascii c / 16) + nat_of_ascii c mod 16) = c.
Proof.
  destruct c as [[] [] [] [] [] [] [] []]; vm_compute; repeat split.
Qed.

Lemma escape_plain (c : ascii) :
  Ascii.eqb (hex_digit (nat_of_ascii c / 16)) "&" = false /\
  Ascii.eqb (hex_digit (nat_of_ascii c / 16)) "=" = false /\
  Ascii.eqb (hex_digit (nat_of_ascii c mod 16)) "&" = false /\
  Ascii.eqb (hex_digit (nat_of_ascii c mod 16)) "=" = false.
Proof.
  destruct c as [[] [] [] [] [] [] [] []]; vm_compute; repeat split.
Qed.

(** Decoding undoes the encoder of qs. *)
Lemma decode_encode (s : string) : decode (encode s) = s.
Proof.
  induction s as [| c rest IH]; [reflexivity |].
  cbn [encode]. destruct (unreserved c) eqn:Hc.
  - destruct (unreserved_plain c Hc) as (Hpercent & Hplus & _ & _).
    cbn [decode]. now rewrite Hpercent, Hplus, IH.
  - destruct (escape_round_trip c) as (Hhigh & Hlow & Hbyte).
    cbv zeta. cbn [decode].
    change (Ascii.eqb "%" "%") with true. cbv iota.
    now rewrite Hhigh, Hlow, Hbyte, IH.
Qed.

(** Encoded text holds no [&] and no [=]. *)
Lemma encode_plain (s : string) :
  occurs "&" (encode s) = false /\ occurs "=" (encode s) = false.
Proof.
  induction s as [| c rest [IHamp IHeq]]; [split; reflexivity |].
  cbn [encode]. destruct (unreserved c) eqn:Hc.
  - destruct (unreserved_plain c Hc) as (_ & _ & Hamp & Heq).
    cbn [occurs]. now rewrite Hamp, Heq, IHamp, IHeq.
  - destruct (escape_plain c) as (H1 & H2 & H3 & H4).
    cbv zeta. cbn [occurs].
    change (Ascii.eqb "%" "&") with false. change (Ascii.eqb "%" "=") with false.
    now rewrite H1, H2, H3, H4, IHamp, IHeq.
Qed.

Lemma occurs_app (sep : ascii) (s1 s2 : string) :
  occurs sep (s1 ++ s2) = (occurs sep s1 || occurs sep s2)%bool.
Proof.
  induction s1 as [| c s1 IH]; simpl; [reflexivity |].
  now rewrite IH, orb_assoc.
Qed.

Lemma split_on_none (sep : ascii) (s : string) :
  occurs sep s = false -> split_on sep s = [s].
Proof.
  induction s as [| c s IH]; simpl; [reflexivity |].
  intros H. apply orb_false_iff in H as [Hc Hs].
  now rewrite Hc, (IH Hs).
Qed.

Lemma split_on_app (sep : ascii) (s1 s2 : string) :
  occurs sep s1 = false ->
  split_on sep (s1 ++ String sep s2) = s1 :: split_on sep s2.
Proof.
  induction s1 as [| c s1 IH]; simpl.
  - intros _. now rewrite Ascii.eqb_refl.
  - intros H. apply orb_false_iff in H as [Hc Hs].
    now rewrite Hc, (IH Hs).
Qed.

(** Cutting at the separator undoes joining with it, for pieces that do not
    hold it. *)
Lemma split_on_concat (sep : ascii) (pieces : list string) :
  pieces <> [] ->
  Forall (fun piece => occurs sep piece = false) pieces ->
  split_on sep (String.concat (String sep EmptyString) pieces) = pieces.
Proof.
  induction pieces as [| piece rest IH]; [congruence |].
  intros _ Hall. inversion Hall as [| ? ? Hpiece Hrest]; subst.
  destruct rest as [| next rest].
  - simpl. now apply split_on_none.
  - change (String.concat (String sep EmptyString) (piece :: next :: rest))
      with (piece ++ String sep (String.concat (String sep EmptyString) (next :: rest))).
    rewrite split_on_app by assumption.
    now rewrite IH.
Qed.

Lemma split_pair_app (name text : string) :
  occurs "=" name = false ->
  split_pair (name ++ String "=" text) = (name, text).
Proof.
  induction name as [| c name IH]; simpl.
  - reflexivity.
  - intros H. apply orb_false_iff in H as [Hc Hname].
    now rewrite Hc, (IH Hname).
Qed.

Lemma parse_field_encoded (name text : string) :
  parse_field (encode name ++ "=" ++ encode text) = (name, text).
Proof.
  unfold parse_field.
  change (encode name ++ "=" ++ encode text)
    with (encode name ++ String "=" (encode text)).
  rewrite split_pair_app by apply encode_plain.
  cbn [fst snd]. now rewrite !decode_encode.
Qed.

Lemma stringify_string_fields (pairs : list (string * string)) :
  stringify_fields (string_fields pairs) =
  map (fun pair => encode (fst pair) ++ "=" ++ encode (snd pair)) pairs.
Proof.
  induction pairs as [| [name text] rest IH]; [reflexivity |].
  cbn [string_fields map fst snd stringify_fields stringify app].
  f_equal. exact IH.
Qed.

Lemma field_not_empty (name text : string) :
  String.eqb (name ++ "=" ++ text) "" = false.
Proof. destruct name; reflexivity. Qed.

(** A record of strings is read back from its form encoding, names and
    values, in order. *)
Lemma parse_form_string_fields (pairs : list (string * string)) :
  parse_form (qs_stringify (VObject (string_fields pairs))) = pairs.
Proof.
  unfold parse_form, qs_stringify. rewrite stringify_string_fields.
  destruct pairs as [| pair rest]; [reflexivity |].
  change "&" with (String "&"%char EmptyString) at 1.
  rewrite split_on_concat.
  - induction (pair :: rest) as [| [name text] more IH]; [reflexivity |].
    cbn [map filter fst snd]. rewrite field_not_empty. cbn [negb map].
    now rewrite parse_field_encoded, IH.
  - discriminate.
  - apply Forall_forall. intros piece Hin.
    apply in_map_iff in Hin as ([name text] & <- & _). cbn [fst snd].
    rewrite !occurs_app. cbn [occurs].
    destruct (encode_plain name) as [-> _]. destruct (encode_plain text) as [-> _].
    reflexivity.
Qed.

(** Whatever characters the four input strings hold, the provider that
    parses the form body of the request of [init] reads exactly the five
    fields, with the literal grant type and the four input strings as they
    were given: a [&], [=], [+] or [%] inside a value adds no field and
    changes none. *)
Theorem init_form_body_reads_back
    (rt : Runtime) (net : Network) (arg : DataObject) (config : AxiosConfig)
    (c cid cs r : string) :
  In config (requests_of rt net arg) ->
  get (get (body arg) K_metadata) K_code = VString c ->
  get (body arg) K_clientId = VString cid ->
  get (body arg) K_clientSecret = VString cs ->
  get (get (body arg) K_metadata) K_redirectUri = VString r ->
  parse_form (data config) =
    [ ("grant_type", "authorization_code");
      ("code", c);
      ("client_id", cid);
      ("client_secret", cs);
      ("redirect_uri", r) ].
Proof.
  intros Hin Hc Hcid Hcs Hr.
  destruct (requests_of_In rt net arg config Hin) as (_ & _ & ->).
  unfold request_for. rewrite Hc, Hcid, Hcs, Hr.
  apply (parse_form_string_fields
           [ ("grant_type", "authorization_code");
             ("code", c);
             ("client_id", cid);
             ("client_secret", cs);
             ("redirect_uri", r) ]).
Qed.

Lemma init_form_body_reads_back_witness :
  parse_form
    "grant_type=authorization_code&code=c0de%2F1&client_id=client-1&client_secret=s3cr%26t&redirect_uri=https%3A%2F%2Fapp.example%2Fcb" =
    [ ("grant_type", "authorization_code");
      ("code", "c0de/1");
      ("client_id", "client-1");
      ("client_secret", "s3cr&t");
      ("redirect_uri", "https://app.example/cb") ].
Proof.
  apply (init_form_body_reads_back sample_runtime provider_tokens sample_input
           (request_for (body sample_input))
           "c0de/1" "client-1" "s3cr&t" "https://app.example/cb");
    [now left | reflexivity ..].
Defined.

(** ** When [init] returns *)

(** [init] returns a record in one case only: [body] and [body.metadata] can
    be destructured, the provider answers the request with a status in
    200..299, and the parsed body of that answer can be destructured.  The
    record is then the one read from that body.  In every other case the
    promise is rejected. *)
Theorem init_returns_iff
    (rt : Runtime) (net : Network) (arg : DataObject) (result : OAuthResponse) :
  outcome_of rt net arg = Returned result <->
  nullish (body arg) = false /\
  nullish (get (body arg) K_metadata) = false /\
  exists status d,
    net (request_for (body arg)) = NetResponse status d /\
    validateStatus status = true /\
    nullish d = false /\
    result = {| accessToken := get d K_access_token;
                refreshToken := get d K_refresh_token;
                expiresIn := get d K_expires_in;
                tokenType := "Bearer";
                meta := [] |}.
Proof.
  unfold outcome_of. rewrite run_init. split.
  - destruct (nullish (body arg)); [discriminate |].
    destruct (nullish (get (body arg) K_metadata)); [discriminate |].
    cbn [snd]. intros Hreturned.
    apply returned_after_settle in Hreturned as (status & d & Hnet & Hstatus & Hd & ->).
    repeat split. now exists status, d.
  - intros (-> & -> & status & d & -> & Hstatus & Hd & ->).
    cbn [snd]. rewrite settle_response by assumption.
    unfold after_settle. cbn [response_data]. now rewrite Hd.
Qed.

Lemma init_returns_iff_witness :
  outcome_of sample_runtime provider_tokens sample_input =
    Returned {| accessToken := VString "A";
                refreshToken := VString "R";
                expiresIn := VNumber 3600;
                tokenType := "Bearer";
                meta := [] |} /\
  forall result,
    outcome_of sample_runtime provider_redirect sample_input <> Returned result.
Proof.
  split.
  - apply (proj2 (init_returns_iff sample_runtime provider_tokens sample_input _)).
    split; [reflexivity |]. split; [reflexivity |].
    exists 200%Z, (VObject [ ("access_token", VString "A");
                             ("refresh_token", VString "R");
                             ("expires_in", VNumber 3600) ]).
    repeat split.
  - intros result Hreturned.
    apply (proj1 (init_returns_iff sample_runtime provider_redirect sample_input result))
      in Hreturned.
    destruct Hreturned as (_ & _ & status & d & Hnet & Hstatus & _).
    injection Hnet as <- <-. discriminate Hstatus.
Defined.

(** ** What the request depends on *)

(** [init] reads [clientId], [clientSecret], [metadata.code] and
    [metadata.redirectUri] of its input and nothing else: two inputs that can
    be destructured and agree on these four reads issue the same request and
    end in the same outcome, whatever other properties they carry and in
    whatever order. *)
Theorem init_reads_four_input_fields_only
    (rt : Runtime) (net : Network) (arg1 arg2 : DataObject) :
  nullish (body arg1) = false ->
  nullish (body arg2) = false ->
  nullish (get (body arg1) K_metadata) = false ->
  nullish (get (body arg2) K_metadata) = false ->
  get (body arg1) K_clientId = get (body arg2) K_clientId ->
  get (body arg1) K_clientSecret = get (body arg2) K_clientSecret ->
  get (get (body arg1) K_metadata) K_code = get (get (body arg2) K_metadata) K_code ->
  get (get (body arg1) K_metadata) K_redirectUri =
    get (get (body arg2) K_metadata) K_redirectUri ->
  run rt net (init rt arg1) = run rt net (init rt arg2).
Proof.
  intros Hb1 Hb2 Hm1 Hm2 Hcid Hcs Hc Hr.
  rewrite !run_init, Hb1, Hb2, Hm1, Hm2.
  unfold request_for. now rewrite Hcid, Hcs, Hc, Hr.
Qed.

Lemma init_reads_four_input_fields_only_witness :
  run sample_runtime provider_bad_request (init sample_runtime sample_input) =
  run sample_runtime provider_bad_request (init sample_runtime sample_input_with_more).
Proof.
  apply (init_reads_four_input_fields_only sample_runtime provider_bad_request
           sample_input sample_input_with_more);
    reflexivity.
Defined.

(** A [code] that is [null], unlike one that is missing, stays in the
    request: the form body carries the field [code=] with an empty value
    right after the grant type. *)
Theorem init_null_code_sent_empty
    (rt : Runtime) (net : Network) (arg : DataObject) (config : AxiosConfig) :
  In config (requests_of rt net arg) ->
  get (get (body arg) K_metadata) K_code = VNull ->
  data config =
    String.concat "&"
      ("grant_type=authorization_code"
       :: "code="
       :: (stringify "client_id" (get (body arg) K_clientId)
           ++ stringify "client_secret" (get (body arg) K_clientSecret)
           ++ stringify "redirect_uri" (get (get (body arg) K_metadata) K_redirectUri))%list).
Proof.
  intros Hin Hcode.
  destruct (requests_of_In rt net arg config Hin) as (_ & _ & ->).
  unfold request_for, token_request, requestBody, qs_stringify.
  rewrite Hcode. cbn [data stringify_fields]. now rewrite app_nil_r.
Qed.

Lemma init_null_code_sent_empty_witness :
  data (request_for (body sample_input_null_code)) =
    "grant_type=authorization_code&code=&client_id=client-1&client_secret=s3cr%26t&redirect_uri=https%3A%2F%2Fapp.example%2Fcb".
Proof.
  apply (init_null_code_sent_empty sample_runtime provider_tokens sample_input_null_code
           (request_for (body sample_input_null_code)));
    [now left | reflexivity].
Defined.
